(** * grimoirebots-fastapi: the route handlers of [main.py]

    A shallow embedding of the single module of the repository: the data
    models ([ModelName], [Image], [Item], [Offer]), the module-level lookup
    table [items] and the route handlers registered on [app].

    - Python [float] is IEEE 754 binary64; it is embedded as Rocq's primitive
      [float], so [+], [>=], [==] and truthiness are the machine operations.
    - Python [str] is embedded as [string]; one character of the model stands
      for one character of the Python string, so [String.length] is [len].
    - A [dict] with string keys is a [gmap string _], a [set[str]] is a
      [gset string].
    - A handler runs against the module globals and either returns or raises:
      handlers live in a small state-and-exception monad. *)

From Stdlib Require Import Floats ZArith String List Bool.
From stdpp Require Import base option gmap strings list.

Set Warnings "-register-all".
Local Open Scope string_scope.

(** ** Exceptions and outcomes *)

(** The exceptions a handler body can raise: the explicit
    [HTTPException(status_code=..., detail=...)], the [KeyError] of a
    subscript on a missing key, and pydantic's [ValidationError], kept as the
    list of the fields that were refused. *)
Inductive exn : Type :=
| HTTPException (status_code : Z) (detail : string)
| KeyError (key : string)
| ValidationError (fields : list string).

Inductive outcome (A : Type) : Type :=
| Return (a : A)
| Raise (e : exn).
Arguments Return {A} a.
Arguments Raise {A} e.

Definition raised {A : Type} (o : outcome A) : option exn :=
  match o with
  | Return _ => None
  | Raise e => Some e
  end.

(** ** Field constraints

    The two constraints that the models declare through [Field], with the
    test pydantic applies to each: [ge=b] refuses [v] unless [v >= b], and
    [max_length=n] refuses [s] when [len(s) > n]. *)
Definition ge_ok (b v : float) : bool := (b <=? v)%float.

Definition max_length_ok (n : nat) (s : string) : bool :=
  (String.length s <=? n)%nat.

(** [min_length=n] of a [Query] parameter: refuses [s] when [len(s) < n]. *)
Definition min_length_ok (n : nat) (s : string) : bool :=
  (n <=? String.length s)%nat.

(** A constraint on an optional field applies only when a value is given. *)
Definition when_given {A : Type} (ok : A -> bool) (o : option A) : bool :=
  match o with
  | None => true
  | Some a => ok a
  end.

(** ** Data models *)

(** [class ModelName(str, Enum)]: three members, each carrying its string. *)
Module ModelName.
Inductive t : Type :=
| alexnet
| resnet
| lenet.

Definition value (m : t) : string :=
  match m with
  | alexnet => "alexnet"
  | resnet => "resnet"
  | lenet => "lenet"
  end.

#[global] Instance eq_dec : EqDecision t.
Proof. solve_decision. Defined.
End ModelName.

(** [uuid.UUID]: a 128-bit identifier, kept as its integer. *)
Record UUID : Type := mkUUID { uuid_int : Z }.

(** [pydantic.HttpUrl]: a string that the framework's URL parser accepted.
    The parser is not part of the module; a value of this type stands for
    an accepted URL and keeps its text. *)
Record HttpUrl : Type := mkHttpUrl { url_text : string }.

Module Image.
Record t : Type := mk { url : HttpUrl; name : string }.
End Image.

Module Item.
Record t : Type := mk {
  name : string;
  description : option string;
  price : float;
  tax : option float;
  tags : gset string;
  images : option (list Image.t)
}.

(** The fields that validation refuses, in declaration order:
    [description] carries [max_length=300], [price] carries [ge=0]; the
    other fields declare no constraint. *)
Definition errors (i : t) : list string :=
  (if when_given (max_length_ok 300) (description i) then [] else ["description"])
  ++ (if ge_ok 0 (price i) then [] else ["price"]).

(** Building an instance validates it: [Item(...)] returns the instance
    or raises [ValidationError]. *)
Definition validate (i : t) : outcome t :=
  match errors i with
  | [] => Return i
  | fields => Raise (ValidationError fields)
  end.

(** [Item(name=..., price=...)]: the other fields take their defaults
    ([None], [None], [set()], [None]). *)
Definition init (name : string) (price : float) : outcome t :=
  validate (mk name None price None ∅ None).
End Item.

Module Offer.
Record t : Type := mk {
  name : string;
  description : option string;
  price : float;
  items : list Item.t
}.

(** [Offer] declares no [Field] constraint of its own: only the nested
    [items], each an [Item], can be refused. *)
Definition errors (o : t) : list string :=
  if forallb (fun i => bool_decide (Item.errors i = [])) (items o)
  then [] else ["items"].

Definition validate (o : t) : outcome t :=
  match errors o with
  | [] => Return o
  | fields => Raise (ValidationError fields)
  end.
End Offer.

(** Python values that the handlers put into the dictionaries they return. *)
Inductive value : Type :=
| VNone
| VStr (s : string)
| VFloat (x : float)
| VSet (s : gset string)
| VList (l : list value)
| VDict (d : gmap string value)
| VModelName (m : ModelName.t)
| VUUID (u : UUID)
| VItem (i : Item.t).

(** [None] or the wrapped value of an optional field. *)
Definition optional {A : Type} (wrap : A -> value) (o : option A) : value :=
  match o with
  | None => VNone
  | Some a => wrap a
  end.

(** [image.dict()] *)
Definition Image_dict (im : Image.t) : gmap string value :=
  {[ "url" := VStr (url_text (Image.url im)); "name" := VStr (Image.name im) ]}.

(** [item.dict()]: one entry per declared field; nested models are turned
    into dictionaries in turn. *)
Definition Item_dict (i : Item.t) : gmap string value :=
  {[ "name" := VStr (Item.name i);
     "description" := optional VStr (Item.description i);
     "price" := VFloat (Item.price i);
     "tax" := optional VFloat (Item.tax i);
     "tags" := VSet (Item.tags i);
     "images" :=
       optional (fun l => VList (map (fun im => VDict (Image_dict im)) l))
                (Item.images i) ]}.

(** [d.update(other)]: the entries of [other] are written over [d]. *)
Definition dict_update {A : Type} (d other : gmap string A) : gmap string A :=
  other ∪ d.

(** Truth value of a [float]: everything but zero ([0.0] and [-0.0]). *)
Definition float_bool (x : float) : bool := negb (x =? 0)%float.

(** Truth value of a [float | None]: [None] is false. *)
Definition optional_float_bool (o : option float) : bool :=
  match o with
  | None => false
  | Some x => float_bool x
  end.

(** ** Module globals and the handler monad *)

(** The one module-level binding handlers read: the dictionary [items]. *)
Record globals : Type := mkGlobals { g_items : gmap string string }.

(** [items = {"foo": "The Foo Wrestlers"}] *)
Definition items : gmap string string := {[ "foo" := "The Foo Wrestlers" ]}.

(** The globals once the module has been imported. *)
Definition startup : globals := mkGlobals items.

Definition handler (A : Type) : Type := globals -> outcome A * globals.

#[global] Instance handler_ret : MRet handler :=
  fun A a g => (Return a, g).

#[global] Instance handler_bind : MBind handler :=
  fun A B k m g =>
    match m g with
    | (Return a, g') => k a g'
    | (Raise e, g') => (Raise e, g')
    end.

Definition raise {A : Type} (e : exn) : handler A :=
  fun g => (Raise e, g).

(** Reading the global name [items]. *)
Definition load_items : handler (gmap string string) :=
  fun g => (Return (g_items g), g).

(** [items[key] = v]: no handler of the module does this; it is here to
    show what a write to the table would be. *)
Definition store_item (key v : string) : handler unit :=
  fun g => (Return tt, mkGlobals (<[key := v]> (g_items g))).

(** Lifting a constructor call, which returns or raises without touching
    the globals. *)
Definition construct {A : Type} (o : outcome A) : handler A :=
  fun g => (o, g).

(** [key in d] *)
Definition contains {A : Type} (d : gmap string A) (key : string) : bool :=
  bool_decide (is_Some (d !! key)).

(** [d[key]] *)
Definition getitem {A : Type} (d : gmap string A) (key : string) : handler A :=
  match d !! key with
  | Some v => mret v
  | None => raise (KeyError key)
  end.

(** ** Route handlers *)

(** [GET /] *)
Definition root : handler (gmap string value) :=
  mret {[ "message" := VStr "Hello World" ]}.

(** [POST /index-weights/] *)
Definition create_index_weights (weights : gmap Z float) : handler (gmap Z float) :=
  mret weights.

(** [POST /offers/] *)
Definition create_offer (offer : Offer.t) : handler Offer.t :=
  mret offer.

(** [POST /images/multiple/] *)
Definition create_multiple_images (images : list Image.t) : handler (list Image.t) :=
  mret images.

(** [GET /items/]: the query parameter is bound and not used; the two
    instances are built, and so validated, on every call. *)
Definition read_items (q : option string) : handler (list Item.t) :=
  portal_gun ← construct (Item.init "Portal Gun" 42%float);
  plumbus ← construct (Item.init "Plumbus" 32%float);
  mret [portal_gun; plumbus].

(** [GET /items/{item_id}] *)
Definition read_item (item_id : string) : handler (gmap string value) :=
  table ← load_items;
  if negb (contains table item_id)
  then raise (HTTPException 404 "Item not found")
  else
    found ← getitem table item_id;
    mret {[ "item" := VStr found ]}.

(** [GET /models/{model_name}]: the first test is on the member's identity,
    the second on its string. *)
Definition get_model (model_name : ModelName.t) : handler (gmap string value) :=
  if bool_decide (model_name = ModelName.alexnet)
  then mret {[ "model_name" := VModelName model_name;
               "message" := VStr "Deep Learning FTW!" ]}
  else if String.eqb (ModelName.value model_name) "lenet"
  then mret {[ "model_name" := VModelName model_name;
               "message" := VStr "LeCNN all the images" ]}
  else mret {[ "model_name" := VModelName model_name;
               "message" := VStr "Have some residuals" ]}.

(** [GET /files/{file_path:path}] *)
Definition read_file (file_path : string) : handler (gmap string value) :=
  mret {[ "file_path" := VStr file_path ]}.

(** [POST /items/]: [if item.tax:] is the truth value of a [float | None],
    so the branch is entered exactly when a tax is given and is not zero;
    there [item.tax] is the given float. *)
Definition create_item (item : Item.t) : handler (gmap string value) :=
  let item_dict := Item_dict item in
  if optional_float_bool (Item.tax item)
  then
    match Item.tax item with
    | Some tax =>
        let price_with_tax := (Item.price item + tax)%float in
        mret (dict_update item_dict {[ "price_with_tax" := VFloat price_with_tax ]})
    | None => mret item_dict
    end
  else mret item_dict.

(** [PUT /items/{item_id}] *)
Definition update_item (item_id : UUID) (item : Item.t) : handler (gmap string value) :=
  mret {[ "item_id" := VUUID item_id; "item" := VItem item ]}.

(** ** The application: parsed requests, validation and dispatch *)

(** One constructor per registered route, carrying the parsed parameters. *)
Inductive request : Type :=
| GET_root
| POST_index_weights (weights : gmap Z float)
| POST_offers (offer : Offer.t)
| POST_images_multiple (images : list Image.t)
| GET_items (q : option string)
| GET_items_id (item_id : string)
| GET_models (model_name : ModelName.t)
| GET_files (file_path : string)
| POST_items (item : Item.t)
| PUT_items_id (item_id : UUID) (item : Item.t).

Definition response (r : request) : Type :=
  match r with
  | POST_index_weights _ => gmap Z float
  | POST_offers _ => Offer.t
  | POST_images_multiple _ => list Image.t
  | GET_items _ => list Item.t
  | GET_root | GET_items_id _ | GET_models _ | GET_files _
  | POST_items _ | PUT_items_id _ _ => gmap string value
  end.

(** The handler registered for each route. *)
Definition dispatch (r : request) : handler (response r) :=
  match r return handler (response r) with
  | GET_root => root
  | POST_index_weights weights => create_index_weights weights
  | POST_offers offer => create_offer offer
  | POST_images_multiple images => create_multiple_images images
  | GET_items q => read_items q
  | GET_items_id item_id => read_item item_id
  | GET_models model_name => get_model model_name
  | GET_files file_path => read_file file_path
  | POST_items item => create_item item
  | PUT_items_id item_id item => update_item item_id item
  end.

(** The parameters that schema validation refuses for a request: the
    constraints of the body model, and [min_length=3] on the query string of
    [GET /items/]. *)
Definition request_errors (r : request) : list string :=
  match r with
  | POST_offers offer => Offer.errors offer
  | POST_items item | PUT_items_id _ item => Item.errors item
  | GET_items q => if when_given (min_length_ok 3) q then [] else ["item-query"]
  | _ => []
  end.

(** What the application does with a request: a refused request is answered
    by the framework and its handler is not called. *)
Inductive served (A : Type) : Type :=
| Rejected (fields : list string)
| Called (o : outcome A).
Arguments Rejected {A} fields.
Arguments Called {A} o.

Definition serve (r : request) (g : globals) : served (response r) * globals :=
  match request_errors r with
  | [] => let '(o, g') := dispatch r g in (Called o, g')
  | fields => (Rejected fields, g)
  end.

(** The globals after a sequence of requests. *)
Definition run (rs : list request) (g : globals) : globals :=
  foldl (fun g r => (serve r g).2) g rs.

(** The globals after calling the handlers directly, one after the other. *)
Definition run_handlers (rs : list request) (g : globals) : globals :=
  foldl (fun g r => (dispatch r g).2) g rs.

(** ** Notions used in the statements *)

(** The canned message of each member. *)
Definition message_of (m : ModelName.t) : string :=
  match m with
  | ModelName.alexnet => "Deep Learning FTW!"
  | ModelName.lenet => "LeCNN all the images"
  | ModelName.resnet => "Have some residuals"
  end.

(** Whether a request is routed to [read_item]. *)
Definition is_read_item (r : request) : bool :=
  match r with
  | GET_items_id _ => true
  | _ => false
  end.

(** The reading of the derived field that asks for it whenever a tax is
    given: every field of a valid item is returned as [item.dict()] has it,
    and ["price_with_tax"] is [price + tax] as soon as [tax] is not
    [None]. *)
Definition price_with_tax_whenever_tax_given : Prop :=
  ∀ (item : Item.t) (g : globals),
    Item.errors item = [] →
    ∃ d : gmap string value,
      create_item item g = (Return d, g)
      /\ (∀ key, is_Some (Item_dict item !! key) → d !! key = Item_dict item !! key)
      /\ ∀ tax, Item.tax item = Some tax →
           d !! "price_with_tax" = Some (VFloat (Item.price item + tax)%float).

(** [ModelName(s)]: the member whose value is [s], looked for in the order
    the members are declared; no member for any other string (Python raises
    [ValueError] there). The path parameter of [GET /models/{model_name}] is
    read this way. *)
Definition ModelName_of_value (s : string) : option ModelName.t :=
  if String.eqb s (ModelName.value ModelName.alexnet) then Some ModelName.alexnet
  else if String.eqb s (ModelName.value ModelName.resnet) then Some ModelName.resnet
  else if String.eqb s (ModelName.value ModelName.lenet) then Some ModelName.lenet
  else None.

(** The names of the fields [class Item] declares. *)
Definition Item_fields : gset string :=
  {[ "name"; "description"; "price"; "tax"; "tags"; "images" ]}.

(** ** Basic facts about the model *)

Section Monad_laws.
Context {A B C : Type}.

Lemma bind_return (a : A) (k : A -> handler B) (g : globals) :
  (mret a ≫= k) g = k a g.
Proof. reflexivity. Qed.

Lemma bind_raise (e : exn) (k : A -> handler B) (g : globals) :
  (raise e ≫= k) g = (Raise e, g).
Proof. reflexivity. Qed.

Lemma return_bind (m : handler A) (g : globals) :
  (m ≫= mret) g = m g.
Proof.
  unfold mbind, handler_bind. destruct (m g) as [[a|e] g']; reflexivity.
Qed.

Lemma bind_bind (m : handler A) (k : A -> handler B) (h : B -> handler C)
    (g : globals) :
  ((m ≫= k) ≫= h) g = (m ≫= (fun a => k a ≫= h)) g.
Proof.
  unfold mbind, handler_bind. destruct (m g) as [[a|e] g']; reflexivity.
Qed.
End Monad_laws.

(** Membership in the table as it is at startup. *)
Lemma items_lookup (key : string) :
  items !! key = if decide (key = "foo") then Some "The Foo Wrestlers" else None.
Proof.
  unfold items. case_decide as Hkey.
  - subst key. apply lookup_singleton_eq.
  - apply lookup_singleton_ne. congruence.
Qed.

Lemma contains_lookup {A : Type} (d : gmap string A) (key : string) :
  contains d key = match d !! key with Some _ => true | None => false end.
Proof.
  unfold contains. destruct (d !! key) as [v|] eqn:Hlook.
  - apply bool_decide_eq_true. eauto.
  - apply bool_decide_eq_false. intros [v Hv]. discriminate.
Qed.

(** [read_item] on any table: the subscript is guarded by the membership
    test, so the only exception is the 404. *)
Lemma read_item_unfold (item_id : string) (g : globals) :
  read_item item_id g =
  (match g_items g !! item_id with
   | Some found => Return {[ "item" := VStr found ]}
   | None => Raise (HTTPException 404 "Item not found")
   end, g).
Proof.
  unfold read_item, load_items, mbind, handler_bind.
  rewrite contains_lookup. unfold getitem.
  destruct (g_items g !! item_id); reflexivity.
Qed.

(** The two instances [read_items] builds pass validation. *)
Lemma read_items_unfold (q : option string) (g : globals) :
  read_items q g =
  (Return [Item.mk "Portal Gun" None 42%float None ∅ None;
           Item.mk "Plumbus" None 32%float None ∅ None], g).
Proof. reflexivity. Qed.

Lemma create_item_unfold (item : Item.t) (g : globals) :
  create_item item g =
  (Return match Item.tax item with
          | Some tax =>
              if float_bool tax
              then <["price_with_tax" := VFloat (Item.price item + tax)%float]>
                     (Item_dict item)
              else Item_dict item
          | None => Item_dict item
          end, g).
Proof.
  unfold create_item, optional_float_bool, dict_update.
  destruct (Item.tax item) as [tax|]; [|reflexivity].
  destruct (float_bool tax); [|reflexivity].
  unfold mret, handler_ret.
  by rewrite <- insert_union_singleton_l.
Qed.

(** No handler writes to the globals. *)
Lemma dispatch_globals (r : request) (g : globals) : (dispatch r g).2 = g.
Proof.
  destruct r; simpl; try reflexivity.
  - rewrite read_item_unfold. reflexivity.
  - unfold get_model. repeat case_match; reflexivity.
  - rewrite create_item_unfold. reflexivity.
Qed.

Lemma serve_globals (r : request) (g : globals) : (serve r g).2 = g.
Proof.
  unfold serve. pose proof (dispatch_globals r g) as Hd.
  destruct (request_errors r); [|reflexivity].
  destruct (dispatch r g) as [o g']. exact Hd.
Qed.

Lemma run_globals (rs : list request) (g : globals) : run rs g = g.
Proof.
  revert g. induction rs as [|r rs IH]; intros g; [reflexivity|].
  unfold run in *. simpl. rewrite serve_globals. apply IH.
Qed.

Lemma run_handlers_globals (rs : list request) (g : globals) :
  run_handlers rs g = g.
Proof.
  revert g. induction rs as [|r rs IH]; intros g; [reflexivity|].
  unfold run_handlers in *. simpl. rewrite dispatch_globals. apply IH.
Qed.

(** The lookups of [item.dict()]. *)
Lemma Item_dict_lookup (i : Item.t) (key : string) :
  Item_dict i !! key =
  if decide (key = "name") then Some (VStr (Item.name i))
  else if decide (key = "description") then Some (optional VStr (Item.description i))
  else if decide (key = "price") then Some (VFloat (Item.price i))
  else if decide (key = "tax") then Some (optional VFloat (Item.tax i))
  else if decide (key = "tags") then Some (VSet (Item.tags i))
  else if decide (key = "images")
       then Some (optional (fun l => VList (map (fun im => VDict (Image_dict im)) l))
                           (Item.images i))
  else None.
Proof.
  unfold Item_dict.
  repeat (case_decide; [subst key; by simplify_map_eq|]).
  by simplify_map_eq.
Qed.

(** ** The lookup endpoint *)

(** C1. [read_item] returns [{"item": "The Foo Wrestlers"}] for the key
    ["foo"] and raises [HTTPException(404, "Item not found")] for every
    other key, at startup and after any sequence of served requests; it
    raises exactly when the key is not ["foo"]. *)
Theorem read_item_known_key_or_404 (item_id : string) (rs : list request) :
  read_item item_id (run rs startup) =
    (if decide (item_id = "foo")
     then Return {[ "item" := VStr "The Foo Wrestlers" ]}
     else Raise (HTTPException 404 "Item not found"),
     startup)
  /\ (is_Some (raised (read_item item_id (run rs startup)).1) <-> item_id ≠ "foo").
Proof.
  rewrite run_globals, read_item_unfold. simpl. rewrite items_lookup.
  case_decide as Hkey; simpl; split; try reflexivity.
  - split; [intros [e He]; discriminate | congruence].
  - split; [congruence | eauto].
Qed.

(** ** The enumerated endpoint *)

(** C3. [get_model] returns its input under ["model_name"] and, under
    ["message"], "Deep Learning FTW!" for alexnet, "LeCNN all the images"
    for lenet and "Have some residuals" for resnet; a model name is one of
    these three members. *)
Theorem get_model_messages (model_name : ModelName.t) (g : globals) :
  get_model model_name g =
    (Return {[ "model_name" := VModelName model_name;
               "message" := VStr (message_of model_name) ]}, g)
  /\ (model_name = ModelName.alexnet
      \/ model_name = ModelName.lenet
      \/ model_name = ModelName.resnet).
Proof. destruct model_name; split; (reflexivity || tauto). Qed.

(** ** Echo handlers *)

(** C4. [create_offer] returns the offer it received, [create_index_weights]
    returns the mapping it received, and [update_item] returns a dictionary
    with exactly the two keys ["item_id"] and ["item"], bound to the
    identifier and the item it received. *)
Theorem echo_handlers_identity
    (offer : Offer.t) (weights : gmap Z float) (item_id : UUID) (item : Item.t)
    (g : globals) :
  create_offer offer g = (Return offer, g)
  /\ create_index_weights weights g = (Return weights, g)
  /\ ∃ d : gmap string value,
       update_item item_id item g = (Return d, g)
       /\ d !! "item_id" = Some (VUUID item_id)
       /\ d !! "item" = Some (VItem item)
       /\ dom d = ({[ "item_id"; "item" ]} : gset string).
Proof.
  split; [reflexivity|]. split; [reflexivity|].
  eexists. split; [reflexivity|].
  split; [by simplify_map_eq|]. split; [by simplify_map_eq|].
  rewrite dom_insert_L, dom_singleton_L. reflexivity.
Qed.

(** ** The lookup table is read-only *)

(** A write to the table would be seen: the state of the model can change,
    so that it does not is a property of the handlers. *)
Remark store_item_is_seen :
  g_items (store_item "bar" "The Bar Fighters" startup).2 ≠ g_items startup.
Proof.
  simpl. intros Heq.
  assert (Hlook : (<["bar" := "The Bar Fighters"]> items : gmap string string) !! "bar"
                  = items !! "bar") by (by rewrite Heq).
  rewrite lookup_insert_eq, items_lookup in Hlook. discriminate.
Qed.

(** C5. The table is the single-entry mapping from ["foo"] to "The Foo
    Wrestlers", and no sequence of requests changes it, whether the
    requests go through validation or the handlers are called directly. *)
Theorem items_never_mutated (rs : list request) (g : globals) :
  g_items startup = {[ "foo" := "The Foo Wrestlers" ]}
  /\ size (g_items startup) = 1
  /\ run rs g = g
  /\ run_handlers rs g = g
  /\ g_items (run rs startup) = {[ "foo" := "The Foo Wrestlers" ]}.
Proof.
  split; [reflexivity|]. split; [apply map_size_singleton|].
  split; [apply run_globals|]. split; [apply run_handlers_globals|].
  by rewrite run_globals.
Qed.

(** ** The listing endpoint *)

(** C9. [read_items] returns the same two items, "Portal Gun" at 42.0 and
    "Plumbus" at 32.0, whatever the query is, [None] included: two calls
    with any two queries return equal lists. *)
Theorem read_items_ignores_query (q q' : option string) (g g' : globals) :
  read_items q g =
    (Return [Item.mk "Portal Gun" None 42%float None ∅ None;
             Item.mk "Plumbus" None 32%float None ∅ None], g)
  /\ (read_items q g).1 = (read_items q' g').1
  /\ (read_items q g).1 = (read_items None g).1.
Proof. rewrite !read_items_unfold. auto. Qed.

(** ** Creating an item *)

(** The dictionary [create_item] returns agrees with [item.dict()] on every
    key but ["price_with_tax"], which [item.dict()] does not have. *)
Lemma create_item_lookup (item : Item.t) (g : globals) :
  ∃ d : gmap string value,
    create_item item g = (Return d, g)
    /\ (∀ key, key ≠ "price_with_tax" → d !! key = Item_dict item !! key)
    /\ d !! "price_with_tax" =
         match Item.tax item with
         | Some tax =>
             if float_bool tax
             then Some (VFloat (Item.price item + tax)%float)
             else None
         | None => None
         end.
Proof.
  rewrite create_item_unfold. eexists. split; [reflexivity|].
  assert (Hnone : Item_dict item !! "price_with_tax" = None)
    by (rewrite Item_dict_lookup; reflexivity).
  destruct (Item.tax item) as [tax|]; [destruct (float_bool tax)|].
  - split; [|apply lookup_insert_eq].
    intros key Hkey. apply lookup_insert_ne. congruence.
  - auto.
  - auto.
Qed.

(** A valid item whose tax is given as [0.0] gets no ["price_with_tax"]. *)
Lemma price_with_tax_absent_for_zero_tax :
  ¬ price_with_tax_whenever_tax_given.
Proof.
  intros Hclaim.
  destruct (Hclaim (Item.mk "Foo" None 35%float (Some 0%float) ∅ None) startup)
    as (d & Hrun & _ & Htax); [reflexivity|].
  specialize (Htax 0%float eq_refl).
  rewrite create_item_unfold in Hrun. simpl in Hrun.
  injection Hrun as <-.
  rewrite Item_dict_lookup in Htax. discriminate.
Qed.

(** C2, amended. [create_item] returns a dictionary that has every field of
    the item as the item has it, and that has ["price_with_tax"], equal to
    [price + tax], exactly when a tax is given and is not zero. *)
Theorem create_item_fields_and_price_with_tax (item : Item.t) (g : globals) :
  ∃ d : gmap string value,
    create_item item g = (Return d, g)
    /\ d !! "name" = Some (VStr (Item.name item))
    /\ d !! "description" = Some (optional VStr (Item.description item))
    /\ d !! "price" = Some (VFloat (Item.price item))
    /\ d !! "tax" = Some (optional VFloat (Item.tax item))
    /\ d !! "tags" = Some (VSet (Item.tags item))
    /\ d !! "images" =
         Some (optional (fun l => VList (map (fun im => VDict (Image_dict im)) l))
                        (Item.images item))
    /\ (∀ key, key ≠ "price_with_tax" → d !! key = Item_dict item !! key)
    /\ d !! "price_with_tax" =
         match Item.tax item with
         | Some tax =>
             if float_bool tax
             then Some (VFloat (Item.price item + tax)%float)
             else None
         | None => None
         end.
Proof.
  destruct (create_item_lookup item g) as (d & Hrun & Hsame & Hderived).
  exists d. split; [exact Hrun|].
  repeat (split; [by rewrite Hsame, Item_dict_lookup|]).
  split; [exact Hsame | exact Hderived].
Qed.

(** C8. When the tax of an item is given and equal to [0.0] (as floats, so
    [-0.0] too), [create_item] returns [item.dict()] as it is, without
    ["price_with_tax"]. *)
Theorem create_item_zero_tax (item : Item.t) (tax : float) (g : globals) :
  Item.tax item = Some tax →
  (tax =? 0)%float = true →
  ∃ d : gmap string value,
    create_item item g = (Return d, g)
    /\ d = Item_dict item
    /\ d !! "price_with_tax" = None
    /\ d !! "tax" = Some (VFloat tax).
Proof.
  intros Htax Hzero. rewrite create_item_unfold, Htax.
  unfold float_bool. rewrite Hzero. simpl.
  eexists. split; [reflexivity|]. split; [reflexivity|].
  rewrite !Item_dict_lookup, Htax. auto.
Qed.

Lemma create_item_zero_tax_witness :
  let item := Item.mk "Foo" (Some "A very nice Item") 35%float (Some (-0)%float) ∅ None in
  Item.errors item = []
  /\ ∃ d : gmap string value,
       create_item item startup = (Return d, startup)
       /\ d = Item_dict item
       /\ d !! "price_with_tax" = None
       /\ d !! "tax" = Some (VFloat (-0)%float).
Proof.
  split; [reflexivity|].
  apply (create_item_zero_tax _ (-0)%float startup); reflexivity.
Defined.

(** ** Validation *)

(** A float below zero is not at least zero. *)
Lemma negative_not_ge_zero (x : float) :
  (x <? 0)%float = true → ge_ok 0 x = false.
Proof.
  unfold ge_ok. rewrite ltb_spec, leb_spec.
  change (Prim2SF 0) with (S754_zero false).
  destruct (Prim2SF x) as [s|s| |s m e]; try destruct s; cbv; congruence.
Qed.

Lemma Item_errors_nil (i : Item.t) :
  Item.errors i = []
  ↔ when_given (max_length_ok 300) (Item.description i) = true
    /\ ge_ok 0 (Item.price i) = true.
Proof.
  unfold Item.errors.
  destruct (when_given _ _), (ge_ok _ _); simpl; split;
    try tauto; try discriminate; intros [? ?]; discriminate.
Qed.

Lemma Item_validate_outcome (i : Item.t) :
  Item.validate i =
  if bool_decide (Item.errors i = [])
  then Return i else Raise (ValidationError (Item.errors i)).
Proof.
  unfold Item.validate. destruct (Item.errors i); reflexivity.
Qed.

Lemma max_length_ok_le (n : nat) (s : string) :
  max_length_ok n s = true ↔ (String.length s ≤ n)%nat.
Proof. unfold max_length_ok. apply Nat.leb_le. Qed.

(** C6. An [Item] that validation accepts is returned as given, its price
    is at least zero and its description, when there is one, has at most
    300 characters; an [Item] that breaks either constraint is refused, and
    a request that carries it as its body is rejected without its handler
    being called. *)
Theorem Item_constraints_enforced (item : Item.t) (item_id : UUID) (g : globals) :
  (∀ accepted : Item.t,
     Item.validate item = Return accepted →
     accepted = item
     /\ (0 <=? Item.price accepted)%float = true
     /\ ∀ text, Item.description accepted = Some text → (String.length text ≤ 300)%nat)
  /\ ((0 <=? Item.price item)%float = false
      ∨ (∃ text, Item.description item = Some text /\ (300 < String.length text)%nat) →
      ∃ fields : list string,
        fields ≠ []
        /\ Item.validate item = Raise (ValidationError fields)
        /\ serve (POST_items item) g = (Rejected fields, g)
        /\ serve (PUT_items_id item_id item) g = (Rejected fields, g)).
Proof.
  split.
  - intros accepted Hok. rewrite Item_validate_outcome in Hok.
    case_bool_decide as Herr; [|discriminate].
    injection Hok as <-. apply Item_errors_nil in Herr as [Hdesc Hprice].
    split; [reflexivity|]. split; [exact Hprice|].
    intros text Htext. rewrite Htext in Hdesc. simpl in Hdesc.
    by apply max_length_ok_le.
  - intros Hbad.
    assert (Herr : Item.errors item ≠ []).
    { intros Hnil. apply Item_errors_nil in Hnil as [Hdesc Hprice].
      destruct Hbad as [Hneg | (text & Htext & Hlong)].
      - unfold ge_ok in Hprice. congruence.
      - rewrite Htext in Hdesc. simpl in Hdesc.
        apply max_length_ok_le in Hdesc. lia. }
    exists (Item.errors item). split; [exact Herr|].
    unfold serve. simpl. rewrite Item_validate_outcome.
    case_bool_decide; [contradiction|].
    destruct (Item.errors item); [contradiction|auto].
Qed.

Lemma Item_constraints_enforced_witness :
  (let item := Item.mk "Foo" (Some "A very nice Item") 35%float (Some 3%float) ∅ None in
   Item.validate item = Return item
   /\ (0 <=? Item.price item)%float = true)
  /\ (let item := Item.mk "Baz" None (-1)%float None ∅ None in
      ∃ fields : list string,
        fields ≠ []
        /\ Item.validate item = Raise (ValidationError fields)
        /\ serve (POST_items item) startup = (Rejected fields, startup)
        /\ serve (PUT_items_id (mkUUID 7) item) startup = (Rejected fields, startup)).
Proof.
  split.
  - split; [reflexivity|].
    apply (Item_constraints_enforced
             (Item.mk "Foo" (Some "A very nice Item") 35%float (Some 3%float) ∅ None)
             (mkUUID 7) startup).
    reflexivity.
  - apply (Item_constraints_enforced
             (Item.mk "Baz" None (-1)%float None ∅ None) (mkUUID 7) startup).
    left. reflexivity.
Defined.

(** ** Errors raised by handler code *)

(** C7. Whatever a handler raises is the 404 of [read_item] on a key that
    is not in the table; every other handler returns, on every input, and a
    request for it that passes validation is answered with what it
    returned. *)
Theorem read_item_404_is_the_only_error (r : request) (g : globals) :
  (∀ e : exn,
     raised (dispatch r g).1 = Some e →
     e = HTTPException 404 "Item not found"
     /\ ∃ item_id, r = GET_items_id item_id /\ g_items g !! item_id = None)
  /\ (is_read_item r = false →
      ∃ a : response r,
        dispatch r g = (Return a, g)
        /\ (request_errors r = [] → serve r g = (Called (Return a), g))).
Proof.
  split.
  - intros e. destruct r; simpl; try discriminate.
    + rewrite read_item_unfold. simpl.
      destruct (g_items g !! item_id) eqn:Hlook; simpl; [discriminate|].
      intros [= <-]. eauto.
    + unfold get_model. repeat case_match; discriminate.
    + rewrite create_item_unfold. discriminate.
  - intros Hother.
    assert (Hret : ∃ a : response r, dispatch r g = (Return a, g)).
    { destruct r; simpl in *; try discriminate; try (eexists; reflexivity).
      - unfold get_model. repeat case_match; eexists; reflexivity.
      - rewrite create_item_unfold. eexists; reflexivity. }
    destruct Hret as [a Ha]. exists a. split; [exact Ha|].
    intros Hvalid. unfold serve. rewrite Hvalid, Ha. reflexivity.
Qed.

Lemma read_item_404_is_the_only_error_witness :
  (∃ e : exn,
     raised (read_item "bar" startup).1 = Some e
     /\ e = HTTPException 404 "Item not found"
     /\ ∃ item_id, GET_items_id "bar" = GET_items_id item_id
                   /\ g_items startup !! item_id = None)
  /\ ∃ a : list Item.t,
       read_items (Some "gun") startup = (Return a, startup)
       /\ (request_errors (GET_items (Some "gun")) = [] →
           serve (GET_items (Some "gun")) startup = (Called (Return a), startup)).
Proof.
  split.
  - exists (HTTPException 404 "Item not found"). split; [reflexivity|].
    apply (proj1 (read_item_404_is_the_only_error (GET_items_id "bar") startup)).
    reflexivity.
  - apply (proj2 (read_item_404_is_the_only_error (GET_items (Some "gun")) startup)).
    reflexivity.
Defined.

(** ** Offers *)

(** C10. An [Offer] whose price is negative and whose items are valid
    passes validation and [create_offer] returns it as it is, while an
    [Item] with that same price is refused on its ["price"] field. *)
Theorem Offer_negative_price_accepted (offer : Offer.t) (g : globals) :
  (Offer.price offer <? 0)%float = true →
  Forall (fun i => Item.errors i = []) (Offer.items offer) →
  Offer.validate offer = Return offer
  /\ create_offer offer g = (Return offer, g)
  /\ serve (POST_offers offer) g = (Called (Return offer), g)
  /\ ∀ item : Item.t,
       Item.price item = Offer.price offer →
       ∃ fields : list string,
         Item.validate item = Raise (ValidationError fields) /\ "price" ∈ fields.
Proof.
  intros Hneg Hitems.
  assert (Herr : Offer.errors offer = []).
  { unfold Offer.errors.
    replace (forallb _ _) with true; [reflexivity|].
    symmetry. apply forallb_forall. intros i Hin.
    apply bool_decide_eq_true. rewrite Forall_forall in Hitems.
    apply Hitems. by apply list_elem_of_In. }
  split; [unfold Offer.validate; by rewrite Herr|].
  split; [reflexivity|].
  split; [unfold serve; simpl; by rewrite Herr|].
  intros item Hprice. exists (Item.errors item).
  assert (Hfield : "price" ∈ Item.errors item).
  { unfold Item.errors. rewrite Hprice, (negative_not_ge_zero _ Hneg).
    apply elem_of_app. right. apply list_elem_of_singleton. reflexivity. }
  split; [|exact Hfield].
  unfold Item.validate. destruct (Item.errors item); [|reflexivity].
  by apply not_elem_of_nil in Hfield.
Qed.

Lemma Offer_negative_price_accepted_witness :
  let offer :=
    Offer.mk "Bundle" None (-1)%float
             [Item.mk "Portal Gun" None 42%float None ∅ None] in
  Offer.validate offer = Return offer
  /\ create_offer offer startup = (Return offer, startup)
  /\ serve (POST_offers offer) startup = (Called (Return offer), startup)
  /\ ∀ item : Item.t,
       Item.price item = (-1)%float →
       ∃ fields : list string,
         Item.validate item = Raise (ValidationError fields) /\ "price" ∈ fields.
Proof.
  apply (Offer_negative_price_accepted
           (Offer.mk "Bundle" None (-1)%float
                     [Item.mk "Portal Gun" None 42%float None ∅ None])
           startup).
  - reflexivity.
  - repeat constructor.
Defined.

(** ** Further properties of the handlers *)

(** *** [item.dict()] loses nothing *)

#[local] Arguments Image_dict : simpl never.
#[local] Arguments Item_dict : simpl never.

Lemma optional_inj {A : Type} (wrap : A -> value) (o o' : option A) :
  (∀ a, wrap a ≠ VNone) →
  (∀ a a', wrap a = wrap a' → a = a') →
  optional wrap o = optional wrap o' → o = o'.
Proof.
  intros Hnone Hinj. destruct o as [a|], o' as [a'|]; simpl; intros Heq.
  - f_equal. by apply Hinj.
  - by apply Hnone in Heq.
  - symmetry in Heq. by apply Hnone in Heq.
  - reflexivity.
Qed.

Lemma Image_dict_lookup (im : Image.t) (key : string) :
  Image_dict im !! key =
  if decide (key = "url") then Some (VStr (url_text (Image.url im)))
  else if decide (key = "name") then Some (VStr (Image.name im))
  else None.
Proof.
  unfold Image_dict.
  repeat (case_decide; [subst key; by simplify_map_eq|]).
  by simplify_map_eq.
Qed.

Lemma Image_dict_inj (im im' : Image.t) :
  Image_dict im = Image_dict im' → im = im'.
Proof.
  intros Heq.
  pose proof (f_equal (.!! "url") Heq) as Hurl.
  pose proof (f_equal (.!! "name") Heq) as Hname.
  rewrite !Image_dict_lookup in Hurl, Hname. simpl in Hurl, Hname.
  destruct im as [[u] n], im' as [[u'] n']. simpl in *. congruence.
Qed.

Lemma Image_dicts_inj (l l' : list Image.t) :
  map (fun im => VDict (Image_dict im)) l = map (fun im => VDict (Image_dict im)) l' →
  l = l'.
Proof.
  revert l'. induction l as [|im l IH]; intros [|im' l'];
    rewrite ?map_cons; try discriminate; [reflexivity|].
  intros Heq. f_equal; [apply Image_dict_inj | apply IH]; congruence.
Qed.

Lemma Item_dict_inj (i j : Item.t) : Item_dict i = Item_dict j → i = j.
Proof.
  intros Heq.
  pose proof (f_equal (.!! "name") Heq) as Hname.
  pose proof (f_equal (.!! "description") Heq) as Hdesc.
  pose proof (f_equal (.!! "price") Heq) as Hprice.
  pose proof (f_equal (.!! "tax") Heq) as Htax.
  pose proof (f_equal (.!! "tags") Heq) as Htags.
  pose proof (f_equal (.!! "images") Heq) as Himages.
  rewrite !Item_dict_lookup in Hname, Hdesc, Hprice, Htax, Htags, Himages.
  simpl in *.
  injection Hname as Hname. injection Hdesc as Hdesc.
  injection Hprice as Hprice. injection Htax as Htax.
  injection Htags as Htags. injection Himages as Himages.
  apply optional_inj in Hdesc; [|discriminate|congruence].
  apply optional_inj in Htax; [|discriminate|congruence].
  apply optional_inj in Himages;
    [|discriminate|intros l l' [= Hl]; by apply Image_dicts_inj].
  destruct i, j. simpl in *. congruence.
Qed.

(** What [create_item] returns, with ["price_with_tax"] taken out again, is
    [item.dict()]. *)
Lemma create_item_delete (item : Item.t) (g : globals) :
  ∃ d : gmap string value,
    create_item item g = (Return d, g)
    /\ delete "price_with_tax" d = Item_dict item.
Proof.
  destruct (create_item_lookup item g) as (d & Hrun & Hsame & _).
  exists d. split; [exact Hrun|]. apply map_eq. intros key.
  destruct (decide (key = "price_with_tax")) as [->|Hkey].
  - rewrite lookup_delete_eq, Item_dict_lookup. reflexivity.
  - rewrite lookup_delete_ne by congruence. by apply Hsame.
Qed.

(** X1. The dictionary [create_item] returns determines the item it was
    given: two items with equal results are equal, field by field, nested
    images included. *)
Theorem create_item_injective (item item' : Item.t) (g g' : globals) :
  (create_item item g).1 = (create_item item' g').1 → item = item'.
Proof.
  destruct (create_item_delete item g) as (d & Hrun & Hdel).
  destruct (create_item_delete item' g') as (d' & Hrun' & Hdel').
  rewrite Hrun, Hrun'. simpl. intros [= ->].
  apply Item_dict_inj. by rewrite <- Hdel, <- Hdel'.
Qed.

Lemma create_item_injective_witness :
  let item :=
    Item.mk "Foo" (Some "A very nice Item") 35%float (Some 3%float) {[ "new" ]}
            (Some [Image.mk (mkHttpUrl "https://github.com/grimoirebots") "Grimoirebots"]) in
  item = item.
Proof.
  apply (create_item_injective _ _ startup startup). reflexivity.
Defined.

(** X2. The keys of the dictionary [create_item] returns are the six field
    names of [Item], and ["price_with_tax"] besides exactly when the tax is
    given and is not zero; there is never any other key. *)
Theorem create_item_keys (item : Item.t) (g : globals) :
  ∃ d : gmap string value,
    create_item item g = (Return d, g)
    /\ dom d =
         (if optional_float_bool (Item.tax item)
          then Item_fields ∪ {[ "price_with_tax" ]}
          else Item_fields)
    /\ size d = (if optional_float_bool (Item.tax item) then 7 else 6)%nat
    /\ delete "price_with_tax" d = Item_dict item.
Proof.
  destruct (create_item_delete item g) as (d & Hrun & Hdel).
  exists d. split; [exact Hrun|].
  assert (Hfields : dom (Item_dict item) = Item_fields).
  { unfold Item_dict, Item_fields.
    rewrite !dom_insert_L, dom_singleton_L. set_solver. }
  assert (Hsix : size (Item_dict item) = 6%nat).
  { rewrite <- size_dom, Hfields. reflexivity. }
  rewrite create_item_unfold in Hrun. injection Hrun as <-.
  unfold optional_float_bool.
  destruct (Item.tax item) as [tax|]; [destruct (float_bool tax)|];
    (split; [|split; [|exact Hdel]]).
  - rewrite dom_insert_L, Hfields. set_solver.
  - rewrite map_size_insert_None; [by rewrite Hsix|].
    rewrite Item_dict_lookup. reflexivity.
  - exact Hfields.
  - exact Hsix.
  - exact Hfields.
  - exact Hsix.
Qed.

(** *** Model names and their strings *)

Ltac string_cases :=
  repeat match goal with
         | |- context [String.eqb ?a ?b] =>
             let Heq := fresh "Heq" in
             destruct (String.eqb_spec a b) as [Heq|?];
             [first [discriminate Heq | subst] |]
         end.

(** X3. Looking a member up by its string and reading the string of a
    member are inverse to each other, and a string that is no member's value
    finds no member. The two kinds of test in [get_model] agree: the
    identity test on [alexnet] holds exactly when the string is "alexnet",
    and the string test on "lenet" exactly when the member is [lenet]. *)
Theorem ModelName_value_round_trip (m : ModelName.t) (s : string) :
  ModelName_of_value (ModelName.value m) = Some m
  /\ (ModelName_of_value s = Some m ↔ ModelName.value m = s)
  /\ (ModelName_of_value s = None ↔ s ∉ ["alexnet"; "resnet"; "lenet"])
  /\ (bool_decide (m = ModelName.alexnet) = true ↔ ModelName.value m = "alexnet")
  /\ (String.eqb (ModelName.value m) "lenet" = true ↔ m = ModelName.lenet).
Proof.
  split; [by destruct m|].
  split.
  { split.
    - unfold ModelName_of_value. cbn [ModelName.value].
      string_cases; intros [= <-]; reflexivity.
    - intros <-. by destruct m. }
  split.
  { unfold ModelName_of_value. simpl.
    rewrite !not_elem_of_cons.
    string_cases; split;
      try discriminate; try tauto.
    intros _. repeat split; try assumption. apply not_elem_of_nil. }
  split.
  - rewrite bool_decide_eq_true. split; [by intros ->|by destruct m].
  - rewrite String.eqb_eq. split; [by destruct m|by intros ->].
Qed.

(** X4. What [GET /models/<s>] answers, read from the path string: the
    string of the member found is the path string again, the handler
    returns that member with the message that goes with the string, and it
    never raises. *)
Theorem get_model_by_path (s : string) (m : ModelName.t) (g : globals) :
  ModelName_of_value s = Some m →
  ModelName.value m = s
  /\ get_model m g =
       (Return {[ "model_name" := VModelName m;
                  "message" :=
                    VStr (if String.eqb s "alexnet" then "Deep Learning FTW!"
                          else if String.eqb s "lenet" then "LeCNN all the images"
                          else "Have some residuals") ]}, g).
Proof.
  unfold ModelName_of_value. cbn [ModelName.value].
  string_cases; intros [= <-]; split; reflexivity.
Qed.

Lemma get_model_by_path_witness :
  ModelName.value ModelName.resnet = "resnet"
  /\ get_model ModelName.resnet startup =
       (Return {[ "model_name" := VModelName ModelName.resnet;
                  "message" := VStr "Have some residuals" ]}, startup).
Proof.
  apply (get_model_by_path "resnet" ModelName.resnet startup). reflexivity.
Defined.

(** *** The query of the listing endpoint *)

(** The list [read_items] returns. *)
Lemma read_items_valid (q : option string) (g : globals) :
  ∃ l : list Item.t,
    read_items q g = (Return l, g) /\ Forall (fun i => Item.errors i = []) l.
Proof.
  rewrite read_items_unfold. eexists. split; [reflexivity|].
  repeat constructor.
Qed.

(** X5. The query of [GET /items/] is checked although the handler does not
    use it: with no query, or with one of at least 3 characters, the request
    is served and every listed item is itself a valid [Item]; with a query
    of fewer than 3 characters, the empty string included, the request is
    rejected on ["item-query"] and the handler is not called. *)
Theorem read_items_query_gate (q : option string) (g : globals) :
  match q with
  | Some text =>
      if (String.length text <? 3)%nat
      then serve (GET_items q) g = (Rejected ["item-query"], g)
      else ∃ l, serve (GET_items q) g = (Called (Return l), g)
                /\ serve (GET_items None) g = (Called (Return l), g)
                /\ Forall (fun i => Item.errors i = []) l
  | None =>
      ∃ l, serve (GET_items None) g = (Called (Return l), g)
           /\ Forall (fun i => Item.errors i = []) l
  end.
Proof.
  destruct (read_items_valid q g) as (l & Hrun & Hvalid).
  rewrite read_items_unfold in Hrun. injection Hrun as <-.
  destruct q as [text|].
  - unfold serve, request_errors, when_given, min_length_ok.
    destruct (Nat.ltb_spec (String.length text) 3) as [Hshort|Hlong].
    + replace (3 <=? String.length text)%nat with false; [reflexivity|].
      symmetry. by apply Nat.leb_gt.
    + replace (3 <=? String.length text)%nat with true
        by (symmetry; by apply Nat.leb_le).
      eexists. split; [reflexivity|]. split; [reflexivity|exact Hvalid].
  - eexists. split; [reflexivity|exact Hvalid].
Qed.

(** *** Who reads the table *)

(** X6. The answer of a handler depends on the globals only through the
    entry of the table that [read_item] looks up: when two states of the
    globals agree on that entry, or the request is for another handler, the
    outcome is the same in both. *)
Theorem only_read_item_reads_the_table (r : request) (g g' : globals) :
  (∀ item_id, r = GET_items_id item_id →
              g_items g !! item_id = g_items g' !! item_id) →
  (dispatch r g).1 = (dispatch r g').1.
Proof.
  intros Hagree. destruct r; simpl; try reflexivity.
  - rewrite !read_item_unfold. simpl. by rewrite (Hagree item_id eq_refl).
  - unfold get_model. repeat case_match; reflexivity.
  - rewrite !create_item_unfold. reflexivity.
Qed.

Lemma only_read_item_reads_the_table_witness :
  (dispatch (GET_items_id "foo") startup).1
  = (dispatch (GET_items_id "foo")
              (mkGlobals (<["bar" := "The Bar Fighters"]> items))).1.
Proof.
  apply (only_read_item_reads_the_table (GET_items_id "foo")).
  intros item_id [= <-]. reflexivity.
Defined.

(** *** What validation reports *)

(** [v >= 0] on binary64: true for every number that is not below zero,
    [-0.0] and [+inf] included, and false for NaN. *)
Lemma ge_ok_zero (x : float) :
  ge_ok 0 x = false ↔ is_nan x = true ∨ (x <? 0)%float = true.
Proof.
  unfold ge_ok, is_nan. rewrite FloatAxioms.leb_spec, FloatAxioms.ltb_spec, FloatAxioms.eqb_spec.
  change (Prim2SF 0) with (S754_zero false).
  destruct (Prim2SF x) as [s|s| |s m e]; try destruct s;
    unfold SFleb, SFltb, SFeqb, SFcompare;
    rewrite ?Z.compare_refl, ?Pos.compare_cont_refl; simpl;
    split; intros H; try discriminate; try (destruct H; discriminate); auto.
Qed.

Lemma Item_errors_price (i : Item.t) :
  "price" ∈ Item.errors i ↔ ge_ok 0 (Item.price i) = false.
Proof.
  unfold Item.errors.
  destruct (when_given _ _), (ge_ok _ _); simpl; split; intros H;
    try discriminate; try reflexivity;
    repeat (apply elem_of_cons in H as [H|H]; try discriminate);
    try (by apply not_elem_of_nil in H).
  - apply list_elem_of_singleton. reflexivity.
  - apply elem_of_cons. right. apply list_elem_of_singleton. reflexivity.
Qed.

Lemma Item_errors_description (i : Item.t) :
  "description" ∈ Item.errors i
  ↔ ∃ text, Item.description i = Some text /\ (300 < String.length text)%nat.
Proof.
  unfold Item.errors, when_given.
  destruct (Item.description i) as [text|].
  - destruct (max_length_ok 300 text) eqn:Hlen.
    + apply max_length_ok_le in Hlen. split.
      * intros H. simpl in H. destruct (ge_ok _ _);
          repeat (apply elem_of_cons in H as [H|H]; try discriminate);
          by apply not_elem_of_nil in H.
      * intros (text' & [= <-] & Hlong). lia.
    + split.
      * intros _. exists text. split; [reflexivity|].
        destruct (Nat.le_gt_cases (String.length text) 300) as [Hle|Hgt];
          [|exact Hgt].
        apply max_length_ok_le in Hle. congruence.
      * intros _. apply elem_of_app. left.
        apply list_elem_of_singleton. reflexivity.
  - split.
    + intros H. simpl in H. destruct (ge_ok _ _);
        repeat (apply elem_of_cons in H as [H|H]; try discriminate);
        by apply not_elem_of_nil in H.
    + intros (text & Hsome & _). discriminate.
Qed.

(** X7. Validation of an [Item] reports exactly the constraints that are
    broken, in declaration order: ["price"] is reported exactly when the
    price is NaN or below zero, ["description"] exactly when a description
    of more than 300 characters is given, and no other field is ever
    reported. *)
Theorem Item_errors_name_the_violations (item : Item.t) :
  ("price" ∈ Item.errors item
   ↔ is_nan (Item.price item) = true ∨ (Item.price item <? 0)%float = true)
  /\ ("description" ∈ Item.errors item
      ↔ ∃ text, Item.description item = Some text
                /\ (300 < String.length text)%nat)
  /\ sublist (Item.errors item) ["description"; "price"]
  /\ (Item.validate item = Return item
      ∨ Item.validate item = Raise (ValidationError (Item.errors item))
        /\ Item.errors item ≠ []).
Proof.
  split; [rewrite Item_errors_price; apply ge_ok_zero|].
  split; [apply Item_errors_description|].
  split.
  - unfold Item.errors.
    destruct (when_given _ _), (ge_ok _ _); simpl.
    + apply sublist_nil_l.
    + apply sublist_cons. reflexivity.
    + apply sublist_skip. apply sublist_nil_l.
    + reflexivity.
  - rewrite Item_validate_outcome. case_bool_decide; auto.
Qed.

(** *** Offers and their items *)

Lemma Offer_errors_nil (o : Offer.t) :
  Offer.errors o = [] ↔ Forall (fun i => Item.errors i = []) (Offer.items o).
Proof.
  unfold Offer.errors.
  destruct (forallb _ _) eqn:Hall.
  - split; [intros _|reflexivity].
    apply Forall_forall. intros i Hin.
    rewrite forallb_forall in Hall.
    apply list_elem_of_In, Hall in Hin. by apply bool_decide_eq_true in Hin.
  - split; [discriminate|]. intros Hvalid.
    assert (Htrue : forallb (fun i => bool_decide (Item.errors i = []))
                            (Offer.items o) = true).
    { apply forallb_forall. intros i Hin. apply bool_decide_eq_true.
      rewrite Forall_forall in Hvalid. apply Hvalid. by apply list_elem_of_In. }
    congruence.
Qed.

(** X8. An [Offer] is accepted exactly when every one of its items is an
    accepted [Item] (so always when it has no items); one refused item
    anywhere in the list has the whole offer refused on ["items"], and the
    request rejected without [create_offer] being called. The name, the
    description and the price of the offer play no part. *)
Theorem Offer_accepted_iff_items_accepted (offer : Offer.t) (g : globals) :
  (Offer.validate offer = Return offer
   ↔ Forall (fun i => Item.errors i = []) (Offer.items offer))
  /\ (Offer.validate offer = Raise (ValidationError ["items"])
      ↔ Exists (fun i => Item.errors i ≠ []) (Offer.items offer))
  /\ (serve (POST_offers offer) g = (Called (Return offer), g)
      ↔ Forall (fun i => Item.errors i = []) (Offer.items offer))
  /\ (serve (POST_offers offer) g = (Rejected ["items"], g)
      ↔ Exists (fun i => Item.errors i ≠ []) (Offer.items offer)).
Proof.
  pose proof (Offer_errors_nil offer) as Hnil.
  assert (Hcases : Offer.errors offer = [] ∨ Offer.errors offer = ["items"]).
  { unfold Offer.errors. destruct (forallb _ _); auto. }
  assert (Hex : Exists (fun i => Item.errors i ≠ []) (Offer.items offer)
                ↔ Offer.errors offer = ["items"]).
  { split.
    - intros Hbad. apply Exists_not_Forall in Hbad.
      destruct Hcases as [Hok|Hitems]; [|exact Hitems].
      by apply Hnil in Hok.
    - intros Hitems.
      apply (not_Forall_Exists (fun i => Item.errors i = [])).
      intros Hall. apply Hnil in Hall. congruence. }
  rewrite Hex, <- Hnil. unfold Offer.validate, serve. simpl.
  destruct Hcases as [-> | ->]; simpl;
    repeat split; intros; congruence.
Qed.

(** *** A tax that is not a number *)

Lemma is_nan_eq (x : float) : is_nan x = true → x = nan.
Proof.
  unfold is_nan. rewrite FloatAxioms.eqb_spec. intros Hnan.
  apply Prim2SF_inj. change (Prim2SF nan) with S754_nan.
  destruct (Prim2SF x) as [s|s| |s m e]; try reflexivity;
    try destruct s; unfold SFeqb, SFcompare in Hnan;
    rewrite ?Z.compare_refl, ?Pos.compare_cont_refl in Hnan; discriminate.
Qed.

Lemma add_nan (x : float) : (x + nan)%float = nan.
Proof.
  apply Prim2SF_inj. rewrite add_spec.
  change (Prim2SF nan) with S754_nan.
  unfold SF64add, SFadd. destruct (Prim2SF x); reflexivity.
Qed.

(** X9. The tax of an [Item] carries no constraint, so a valid item may
    have a tax that is NaN; NaN is not zero, so the derived field is
    computed, and the ["price_with_tax"] that [create_item] returns for such
    a request is NaN, whatever the price. *)
Theorem create_item_nan_tax (item : Item.t) (tax : float) (g : globals) :
  Item.errors item = [] →
  Item.tax item = Some tax →
  is_nan tax = true →
  ∃ d : gmap string value,
    serve (POST_items item) g = (Called (Return d), g)
    /\ d !! "price_with_tax" = Some (VFloat nan)
    /\ d !! "tax" = Some (VFloat nan)
    /\ d !! "price" = Some (VFloat (Item.price item)).
Proof.
  intros Hvalid Htax Hnan. apply is_nan_eq in Hnan. subst tax.
  destruct (create_item_lookup item g) as (d & Hrun & Hsame & Hderived).
  exists d. split.
  - unfold serve. simpl. rewrite Hvalid, Hrun. reflexivity.
  - rewrite Hderived, !Hsame, !Item_dict_lookup, Htax by discriminate.
    simpl. rewrite add_nan. auto.
Qed.

Lemma create_item_nan_tax_witness :
  ∃ d : gmap string value,
    serve (POST_items (Item.mk "Foo" None 35%float (Some nan) ∅ None)) startup
    = (Called (Return d), startup)
    /\ d !! "price_with_tax" = Some (VFloat nan)
    /\ d !! "tax" = Some (VFloat nan)
    /\ d !! "price" = Some (VFloat 35%float).
Proof.
  apply (create_item_nan_tax
           (Item.mk "Foo" None 35%float (Some nan) ∅ None) nan startup);
    reflexivity.
Defined.

(** *** The lookup endpoint on any table *)

(** X10. Whatever the table holds, [read_item] answers from it: for a key
    the table has, a dictionary with the single key ["item"] bound to the
    stored string, and for a key it does not have, the 404. The membership
    test and the subscript look at the same table, so the subscript never
    raises [KeyError], and the table is left as it was. *)
Theorem read_item_on_any_table (item_id : string) (g : globals) :
  match g_items g !! item_id with
  | Some found =>
      ∃ d : gmap string value,
        read_item item_id g = (Return d, g)
        /\ d !! "item" = Some (VStr found)
        /\ dom d = ({[ "item" ]} : gset string)
  | None =>
      read_item item_id g = (Raise (HTTPException 404 "Item not found"), g)
  end
  /\ raised (read_item item_id g).1 ≠ Some (KeyError item_id).
Proof.
  rewrite read_item_unfold.
  destruct (g_items g !! item_id) as [found|]; simpl.
  - split; [|discriminate].
    eexists. split; [reflexivity|].
    split; [apply lookup_singleton_eq | apply dom_singleton_L].
  - split; [reflexivity|discriminate].
Qed.
